(** * Flight-delay prediction service: the inference request pipeline

    A shallow embedding of [Bloque 1 - APIs Modelos/app.py]: the pydantic
    schema [FlightData], the handlers [predict_delay], [predict_batch],
    [info], [metrics] and [simulate_error], and the process-wide state they
    share (the global [prediction_count] and [start_time]).

    Python integers are [Z], Python floats are binary64 primitive floats,
    strings are [string].  Handlers are [async def] bodies without a single
    [await], so each one runs to completion on the event loop: a handler is
    a function from the state before the request to an outcome and the state
    after it.  A raised exception keeps the state reached so far (Python
    does not roll a global back), which is why the monad below returns the
    state on both branches. *)

From Stdlib Require Import ZArith List String Bool Lia.
From Stdlib Require Import Floats.PrimFloat Floats.FloatOps Floats.SpecFloat.
From Stdlib Require Import Numbers.DecimalString.
From Stdlib Require Import Sorting.Permutation.
Import ListNotations.

Open Scope string_scope.
Open Scope list_scope.
Open Scope Z_scope.

(** Decimal literals such as [0.2] stand for the nearest binary64 value,
    as they do in Python. *)
Set Warnings "-inexact-float".

(** ** Exceptions *)

(** A Python exception raised inside a handler: its class name and the
    text [str(e)] gives. *)
Record PyError := mkPyError { exc_type : string; exc_msg : string }.

Definition str (e : PyError) : string := exc_msg e.

(** One entry of the error list FastAPI returns with a 422: where in the
    body the field is, which [Field] bound it broke, and the value sent. *)
Inductive LocPart :=
| LocField (name : string)
| LocIndex (i : nat).

Inductive Bound :=
| greater_than_equal (limit : Z)
| less_than_equal (limit : Z).

Record ErrorDetail := mkErrorDetail {
  loc : list LocPart;
  violated : Bound;
  input : Z
}.

(** What leaves an endpoint instead of a 200 response. *)
Inductive HTTPError :=
| RequestValidationError (errors : list ErrorDetail)
| HTTPException (status_code : Z) (detail : string)
| UnhandledException (e : PyError).

(** The status FastAPI's default exception handlers answer with. *)
Definition status_of (e : HTTPError) : Z :=
  match e with
  | RequestValidationError _ => 422
  | HTTPException status_code _ => status_code
  | UnhandledException _ => 500
  end.

(** ** Data model *)

(** [class FlightData(BaseModel)]. *)
Record FlightData := mkFlightData {
  flight_id : string;
  distance : Z;
  bad_weather : bool
}.

(** [class ErrorData(BaseModel)]. *)
Record ErrorData := mkErrorData { raise_error : bool }.

(** The dictionary [predict_delay] returns and [predict_batch] appends:
    keys ["flight_id"], ["delay_probability"], ["delayed"]. *)
Record PredictionResult := mkPredictionResult {
  res_flight_id : string;
  delay_probability : float;
  delayed : bool
}.

(** [{"predictions": results, "count": len(results)}]. *)
Record BatchResult := mkBatchResult {
  predictions : list PredictionResult;
  count : Z
}.

(** [{"total_predictions": ..., "uptime_seconds": ...}]. *)
Record Metrics := mkMetrics {
  total_predictions : Z;
  uptime_seconds : Z
}.

(** The dictionary [info] returns. *)
Record Info := mkInfo {
  service : string;
  description : string;
  version : string;
  features : list string
}.

(** [{"status": ..., "message": ...}]. *)
Record Ack := mkAck { status : string; message : string }.

(** ** The classifier

    [model] is loaded once with [joblib.load] and never written again.  All
    the handlers use of it is [model.predict_proba(X)], with [X] a list of
    rows of integers; it answers with one row of class probabilities per
    input row, or raises. *)
Definition Features := list (list Z).

Record Classifier := mkClassifier {
  predict_proba : Features -> PyError + list (list float)
}.

(** ** Process state

    [prediction_count] and [start_time] are the two module-level globals.
    [model_calls] is a ghost field: the arguments of every
    [model.predict_proba] call made so far, oldest first.  No handler reads
    it; it is there so that theorems can speak of what reached the
    classifier. *)
Record World := mkWorld {
  prediction_count : Z;
  start_time : float;
  model_calls : list Features
}.

(** Module initialisation: [prediction_count = 0], [start_time = time.time()]. *)
Definition startup (now : float) : World :=
  {| prediction_count := 0; start_time := now; model_calls := [] |}.

(** ** State and exception monad *)

Definition M (E A : Type) : Type := World -> (E + A) * World.

Definition ret {E A} (a : A) : M E A := fun w => (inr a, w).

Definition raise {E A} (e : E) : M E A := fun w => (inl e, w).

Definition bind {E A B} (m : M E A) (k : A -> M E B) : M E B :=
  fun w =>
    match m w with
    | (inl e, w') => (inl e, w')
    | (inr a, w') => k a w'
    end.

(** [try: m  except Exception as e: h e]. *)
Definition try_except {E E' A} (m : M E A) (h : E -> M E' A) : M E' A :=
  fun w =>
    match m w with
    | (inl e, w') => h e w'
    | (inr a, w') => (inr a, w')
    end.

Notation "x <- m ;; k" := (bind m (fun x => k))
  (at level 61, m at next level, right associativity).
Notation "m ;; k" := (bind m (fun _ => k))
  (at level 61, right associativity).

(** [prediction_count += 1]. *)
Definition incr_prediction_count {E} : M E unit :=
  fun w =>
    (inr tt,
     {| prediction_count := prediction_count w + 1;
        start_time := start_time w;
        model_calls := model_calls w |}).

(** ** Indexing and conversions *)

Definition nat_to_string (n : nat) : string :=
  NilZero.string_of_uint (Nat.to_uint n).

(** [a[i]] on an array of the classifier's answer. *)
Definition getitem {A} (a : list A) (i : nat) : PyError + A :=
  match nth_error a i with
  | Some x => inr x
  | None =>
      inl {| exc_type := "IndexError";
             exc_msg := ("index " ++ nat_to_string i
                         ++ " is out of bounds for axis 0 with size "
                         ++ nat_to_string (List.length a))%string |}
  end.

(** [int(x)] on a float: truncation toward zero; NaN and the infinities
    raise. *)
Definition int_of_float (x : float) : PyError + Z :=
  match Prim2SF x with
  | S754_zero _ => inr 0
  | S754_finite s m e =>
      let mag := if 0 <=? e then Z.shiftl (Z.pos m) e
                 else Z.shiftr (Z.pos m) (- e) in
      inr (if s then - mag else mag)
  | S754_infinity _ =>
      inl {| exc_type := "OverflowError";
             exc_msg := "cannot convert float infinity to integer" |}
  | S754_nan =>
      inl {| exc_type := "ValueError";
             exc_msg := "cannot convert float NaN to integer" |}
  end.

(** ** Request validation

    FastAPI builds the handler's argument from the JSON body before the
    handler runs.  [FlightBody] is one JSON object whose three members have
    the JSON types the schema asks for; what is left to check are the
    [Field(..., ge=100, le=5000)] bounds on [distance].  [flight_id: str]
    and [bad_weather: bool] carry no constraint. *)
Record FlightBody := mkFlightBody {
  body_flight_id : string;
  body_distance : Z;
  body_bad_weather : bool
}.

Definition distance_errors (at_ : list LocPart) (d : Z) : list ErrorDetail :=
  if d <? 100 then
    [ {| loc := at_ ++ [LocField "distance"];
         violated := greater_than_equal 100; input := d |} ]
  else if 5000 <? d then
    [ {| loc := at_ ++ [LocField "distance"];
         violated := less_than_equal 5000; input := d |} ]
  else [].

Definition FlightData_errors (at_ : list LocPart) (b : FlightBody)
  : list ErrorDetail :=
  distance_errors at_ (body_distance b).

Definition FlightData_of (b : FlightBody) : FlightData :=
  {| flight_id := body_flight_id b;
     distance := body_distance b;
     bad_weather := body_bad_weather b |}.

(** A body parameter of type [FlightData]. *)
Definition validate_FlightData (b : FlightBody)
  : list ErrorDetail + FlightData :=
  match FlightData_errors [LocField "body"] b with
  | [] => inr (FlightData_of b)
  | errs => inl errs
  end.

(** The errors of the items of a list body, item [i] located at
    [("body", i, ...)]. *)
Fixpoint list_errors (i : nat) (bs : list FlightBody) : list ErrorDetail :=
  match bs with
  | [] => []
  | b :: rest =>
      FlightData_errors [LocField "body"; LocIndex i] b
      ++ list_errors (S i) rest
  end.

(** A body parameter of type [List[FlightData]]: the whole list is
    validated, and one bad item refuses the request. *)
Definition validate_FlightData_list (bs : list FlightBody)
  : list ErrorDetail + list FlightData :=
  match list_errors 0 bs with
  | [] => inr (map FlightData_of bs)
  | errs => inl errs
  end.

(** ** Handlers *)

Section Handlers.

Variable model : Classifier.

(** [float(model.predict_proba(features)[0][1])], as a value. *)
Definition positive_class_probability (X : Features) : PyError + float :=
  match predict_proba model X with
  | inl e => inl e
  | inr proba =>
      match getitem proba 0 with
      | inl e => inl e
      | inr row => getitem row 1
      end
  end.

(** The same expression as a step of a handler: the call is recorded in
    [model_calls]. *)
Definition score (X : Features) : M PyError float :=
  fun w =>
    (positive_class_probability X,
     {| prediction_count := prediction_count w;
        start_time := start_time w;
        model_calls := model_calls w ++ [X] |}).

(** The [try] block of [predict_delay]. *)
Definition predict_delay_body (data : FlightData) : M PyError PredictionResult :=
  let flight_id := flight_id data in
  let distance := distance data in
  let bad_weather := bad_weather data in
  let features := [[distance; Z.b2z bad_weather]] in
  probability <- score features ;;
  let delayed := (0.5 <? probability)%float in
  incr_prediction_count ;;
  ret {| res_flight_id := flight_id;
         delay_probability := probability;
         delayed := delayed |}.

(** [async def predict_delay(data: FlightData)]. *)
Definition predict_delay (data : FlightData) : M HTTPError PredictionResult :=
  try_except (predict_delay_body data)
    (fun e => raise (HTTPException 500 ("Prediction failed: " ++ str e)%string)).

(** The [for data in data_list] loop of [predict_batch]; [results] is the
    list built so far. *)
Fixpoint predict_batch_loop (data_list : list FlightData)
    (results : list PredictionResult) : M PyError (list PredictionResult) :=
  match data_list with
  | [] => ret results
  | data :: rest =>
      let flight_id := flight_id data in
      let distance := distance data in
      let bad_weather := bad_weather data in
      let features := [[distance; Z.b2z bad_weather]] in
      probability <- score features ;;
      let delayed := (0.5 <? probability)%float in
      let results := results ++ [ {| res_flight_id := flight_id;
                                     delay_probability := probability;
                                     delayed := delayed |} ] in
      incr_prediction_count ;;
      predict_batch_loop rest results
  end.

(** The [try] block of [predict_batch]. *)
Definition predict_batch_body (data_list : list FlightData)
  : M PyError BatchResult :=
  results <- predict_batch_loop data_list [] ;;
  ret {| predictions := results; count := Z.of_nat (List.length results) |}.

(** [async def predict_batch(data_list: List[FlightData])]. *)
Definition predict_batch (data_list : list FlightData)
  : M HTTPError BatchResult :=
  try_except (predict_batch_body data_list)
    (fun e => raise (HTTPException 500 ("Batch prediction failed: " ++ str e)%string)).

(** [def info()]. *)
Definition info : M HTTPError Info :=
  ret {| service := "Flight Delay ML API";
         description := "API de ejemplo para enseñar FastAPI y ML";
         version := "1.0";
         features := ["predict"; "predict-batch"; "metrics"; "simulate-error"] |}.

(** [def metrics()]; [now] is what [time.time()] answers during the call.
    The handler has no [try]: a failing [int(...)] leaves it unhandled. *)
Definition metrics (now : float) : M HTTPError Metrics :=
  fun w =>
    match int_of_float (now - start_time w)%float with
    | inr uptime =>
        (inr {| total_predictions := prediction_count w;
                uptime_seconds := uptime |}, w)
    | inl e => (inl (UnhandledException e), w)
    end.

(** [async def simulate_error(data: ErrorData)]. *)
Definition simulate_error (data : ErrorData) : M HTTPError Ack :=
  if raise_error data then
    raise (HTTPException 418 "Este es un error simulado para enseñar manejo")
  else
    ret {| status := "ok"; message := "No se produjo error" |}.

(** ** Endpoints: validation, then the handler

    An endpoint ends where its handler returns or raises; the encoding of
    the returned dictionary as the body of the response is not part of
    it. *)

(** [POST /predict]. *)
Definition post_predict (body : FlightBody) : M HTTPError PredictionResult :=
  match validate_FlightData body with
  | inl errs => raise (RequestValidationError errs)
  | inr data => predict_delay data
  end.

(** [POST /predict-batch]. *)
Definition post_predict_batch (body : list FlightBody)
  : M HTTPError BatchResult :=
  match validate_FlightData_list body with
  | inl errs => raise (RequestValidationError errs)
  | inr data_list => predict_batch data_list
  end.

(** ** The service: one request at a time *)

Inductive Request :=
| POST_predict (body : FlightBody)
| POST_predict_batch (body : list FlightBody)
| GET_info
| GET_metrics (now : float)
| POST_simulate_error (body : ErrorData).

Inductive Response :=
| PredictionJSON (r : PredictionResult)
| BatchJSON (b : BatchResult)
| InfoJSON (i : Info)
| MetricsJSON (m : Metrics)
| AckJSON (a : Ack).

Definition serve (req : Request) : M HTTPError Response :=
  match req with
  | POST_predict body => r <- post_predict body ;; ret (PredictionJSON r)
  | POST_predict_batch body => b <- post_predict_batch body ;; ret (BatchJSON b)
  | GET_info => i <- info ;; ret (InfoJSON i)
  | GET_metrics now => m <- metrics now ;; ret (MetricsJSON m)
  | POST_simulate_error body => a <- simulate_error body ;; ret (AckJSON a)
  end.

(** The state after a sequence of requests, whatever each one answered. *)
Fixpoint run (reqs : list Request) (w : World) : World :=
  match reqs with
  | [] => w
  | req :: rest => run rest (snd (serve req w))
  end.

(** ** Vocabulary of the statements *)

(** The feature rows a record is scored on. *)
Definition features_of (data : FlightData) : Features :=
  [[distance data; Z.b2z (bad_weather data)]].

(** The dictionary both handlers build from a record and its probability. *)
Definition prediction_of (data : FlightData) (p : float) : PredictionResult :=
  {| res_flight_id := flight_id data;
     delay_probability := p;
     delayed := (0.5 <? p)%float |}.

(** Scoring of a record succeeds. *)
Definition scores (data : FlightData) : bool :=
  match positive_class_probability (features_of data) with
  | inr _ => true
  | inl _ => false
  end.

(** How many records at the head of a list are scored before the first
    one whose scoring fails. *)
Fixpoint scored_prefix (data_list : list FlightData) : nat :=
  match data_list with
  | [] => O
  | data :: rest => if scores data then S (scored_prefix rest) else O
  end.

(** The predictions of those records, in their order. *)
Fixpoint scored_results (data_list : list FlightData) : list PredictionResult :=
  match data_list with
  | [] => []
  | data :: rest =>
      match positive_class_probability (features_of data) with
      | inr p => prediction_of data p :: scored_results rest
      | inl _ => []
      end
  end.

(** The exception of the first record whose scoring fails, if any. *)
Fixpoint first_failure (data_list : list FlightData) : option PyError :=
  match data_list with
  | [] => None
  | data :: rest =>
      match positive_class_probability (features_of data) with
      | inr _ => first_failure rest
      | inl e => Some e
      end
  end.

(** The number of successful scorings a request gives rise to. *)
Definition successful_scorings (req : Request) : nat :=
  match req with
  | POST_predict body =>
      match validate_FlightData body with
      | inr data => if scores data then 1%nat else O
      | inl _ => O
      end
  | POST_predict_batch body =>
      match validate_FlightData_list body with
      | inr data_list => scored_prefix data_list
      | inl _ => O
      end
  | _ => O
  end.

End Handlers.

(** The schema's bounds on a body, as a test. *)
Definition in_range (b : FlightBody) : bool :=
  (100 <=? body_distance b) && (body_distance b <=? 5000).

(** ** Stub classifiers, for running the handlers *)

(** Answers every row with the distribution [[1 - p, p]]. *)
Definition constant_model (p : float) : Classifier :=
  {| predict_proba := fun X => inr (map (fun _ => [(1 - p)%float; p]) X) |}.

(** Raises on every call. *)
Definition broken_model : Classifier :=
  {| predict_proba := fun _ =>
       inl {| exc_type := "ValueError"; exc_msg := "model is not fitted" |} |}.

(** Raises when some row has bad weather, answers [[0.25, 0.75]] rows
    otherwise. *)
Definition fair_weather_model : Classifier :=
  {| predict_proba := fun X =>
       if existsb (fun row => match row with
                              | [_; 1] => true
                              | _ => false
                              end) X
       then inl {| exc_type := "ValueError"; exc_msg := "bad weather row" |}
       else inr (map (fun _ => [0.25%float; 0.75%float]) X) |}.

(** Answers with one-column rows: the positive class is missing. *)
Definition one_class_model : Classifier :=
  {| predict_proba := fun X => inr (map (fun _ => [1%float]) X) |}.

(** Answers three-class rows, and one row more than it was asked. *)
Definition three_class_model : Classifier :=
  {| predict_proba := fun X =>
       inr (map (fun _ => [0.125%float; 0.625%float; 0.25%float]) X
            ++ [[1%float; 0%float; 0%float]]) |}.

(** ** Vocabulary of the session properties *)

(** The classifier answers the rows [X] with a usable probability. *)
Definition call_scores (model : Classifier) (X : Features) : bool :=
  match positive_class_probability model X with
  | inr _ => true
  | inl _ => false
  end.

(** The classifier calls a request makes, in order. *)
Definition request_calls (model : Classifier) (req : Request)
  : list Features :=
  match req with
  | POST_predict body =>
      match validate_FlightData body with
      | inr data => [features_of data]
      | inl _ => []
      end
  | POST_predict_batch body =>
      match validate_FlightData_list body with
      | inr data_list =>
          map features_of
            (firstn (S (scored_prefix model data_list)) data_list)
      | inl _ => []
      end
  | _ => []
  end.

(** The successful scorings of a sequence of requests. *)
Fixpoint session_scorings (model : Classifier) (reqs : list Request) : nat :=
  match reqs with
  | [] => O
  | req :: rest =>
      (successful_scorings model req + session_scorings model rest)%nat
  end.

(** The requests that can reach the classifier. *)
Definition is_prediction (req : Request) : bool :=
  match req with
  | POST_predict _ | POST_predict_batch _ => true
  | _ => false
  end.

(** The answer has no component [[0][1]]: no row, or a first row of
    fewer than two entries. *)
Definition lacks_positive_class (proba : list (list float)) : bool :=
  match proba with
  | [] => true
  | row :: _ => (List.length row <? 2)%nat
  end.

(** ** The training script

    [Bloque1_APIs_Modelos/train.py], up to [model.fit]: the loop that
    builds the synthetic data set.  What [np.random] hands out in one turn
    of the loop is an input here. *)
Module train.

(** The three draws of one turn: [np.random.randint(200, 3000)],
    [np.random.choice([0, 1])] and [np.random.rand()]. *)
Record Draw := mkDraw { randint : Z; choice : Z; rand : float }.

(** [delay_prob] at the end of the two [if]s. *)
Definition delay_prob (distance bad_weather : Z) : float :=
  let delay_prob := 0.2%float in
  let delay_prob :=
    if distance >? 1500 then (delay_prob + 0.3)%float else delay_prob in
  let delay_prob :=
    if bad_weather =? 1 then (delay_prob + 0.4)%float else delay_prob in
  delay_prob.

(** The [for _ in range(...)] loop, one turn per element of [draws], from
    the lists [X] and [y] built so far. *)
Fixpoint generate (draws : list Draw) (X : list (list Z)) (y : list Z)
  : list (list Z) * list Z :=
  match draws with
  | [] => (X, y)
  | d :: rest =>
      let distance := randint d in
      let bad_weather := choice d in
      let delay_prob := delay_prob distance bad_weather in
      let delayed := (rand d <? delay_prob)%float in
      generate rest (X ++ [[distance; bad_weather]]) (y ++ [Z.b2z delayed])
  end.

(** [X = []], [y = []], then the loop. *)
Definition dataset (draws : list Draw) : list (list Z) * list Z :=
  generate draws [] [].

End train.

(** ** The handlers run *)

Example post_predict_runs :
  post_predict (constant_model 0.75) (mkFlightBody "IB3456" 1200 true)
    (startup 1000)
  = (inr (mkPredictionResult "IB3456" 0.75 true),
     mkWorld 1 1000 [ [[1200; 1]] ]).
Proof. reflexivity. Qed.

Example post_predict_missing_class :
  post_predict one_class_model (mkFlightBody "IB3456" 1200 true) (startup 1000)
  = (inl (HTTPException 500
            "Prediction failed: index 1 is out of bounds for axis 0 with size 1"),
     mkWorld 0 1000 [ [[1200; 1]] ]).
Proof. reflexivity. Qed.

Example post_predict_batch_runs :
  post_predict_batch (constant_model 0.25)
    [ mkFlightBody "IB3456" 1200 true; mkFlightBody "UX0042" 100 false ]
    (startup 1000)
  = (inr (mkBatchResult [ mkPredictionResult "IB3456" 0.25 false;
                          mkPredictionResult "UX0042" 0.25 false ] 2),
     mkWorld 2 1000 [ [[1200; 1]]; [[100; 0]] ]).
Proof. reflexivity. Qed.

Example metrics_runs :
  metrics 1012.75 (mkWorld 42 1000 [])
  = (inr (mkMetrics 42 12), mkWorld 42 1000 []).
Proof. reflexivity. Qed.

Example metrics_without_a_clock :
  fst (metrics nan (startup 1000))
  = inl (UnhandledException
           (mkPyError "ValueError" "cannot convert float NaN to integer")).
Proof. reflexivity. Qed.

(** ** What a run of each handler is *)

Section Runs.

Variable model : Classifier.

Lemma predict_delay_body_run (data : FlightData) (w : World) :
  predict_delay_body model data w =
  (match positive_class_probability model (features_of data) with
   | inr p => inr (prediction_of data p)
   | inl e => inl e
   end,
   {| prediction_count :=
        prediction_count w + Z.of_nat (if scores model data then 1 else 0);
      start_time := start_time w;
      model_calls := model_calls w ++ [features_of data] |}).
Proof.
  unfold predict_delay_body, bind, score, scores, incr_prediction_count, ret.
  fold (features_of data).
  destruct (positive_class_probability model (features_of data)); simpl.
  - now rewrite Z.add_0_r.
  - reflexivity.
Qed.

Lemma predict_delay_run (data : FlightData) (w : World) :
  predict_delay model data w =
  (match positive_class_probability model (features_of data) with
   | inr p => inr (prediction_of data p)
   | inl e => inl (HTTPException 500 ("Prediction failed: " ++ str e)%string)
   end,
   {| prediction_count :=
        prediction_count w + Z.of_nat (if scores model data then 1 else 0);
      start_time := start_time w;
      model_calls := model_calls w ++ [features_of data] |}).
Proof.
  unfold predict_delay, try_except. rewrite predict_delay_body_run.
  now destruct (positive_class_probability model (features_of data)).
Qed.

Lemma predict_batch_loop_run (data_list : list FlightData) :
  forall (results : list PredictionResult) (w : World),
  predict_batch_loop model data_list results w =
  (match first_failure model data_list with
   | Some e => inl e
   | None => inr (results ++ scored_results model data_list)
   end,
   {| prediction_count :=
        prediction_count w + Z.of_nat (scored_prefix model data_list);
      start_time := start_time w;
      model_calls :=
        model_calls w
        ++ map features_of
             (firstn (S (scored_prefix model data_list)) data_list) |}).
Proof.
  induction data_list as [|data rest IH]; intros results w.
  - simpl. unfold ret. rewrite Z.add_0_r, !app_nil_r. now destruct w.
  - cbn [predict_batch_loop first_failure scored_results scored_prefix].
    unfold bind at 1, score, scores. fold (features_of data).
    destruct (positive_class_probability model (features_of data)) as [e|p].
    + simpl. now rewrite Z.add_0_r.
    + unfold bind, incr_prediction_count. rewrite IH.
      cbn [prediction_count start_time model_calls firstn map].
      fold (prediction_of data p).
      rewrite <- !app_assoc. cbn [app].
      replace (prediction_count w + Z.of_nat (S (scored_prefix model rest)))
        with (prediction_count w + 1 + Z.of_nat (scored_prefix model rest))
        by lia.
      reflexivity.
Qed.

Lemma predict_batch_run (data_list : list FlightData) (w : World) :
  predict_batch model data_list w =
  (match first_failure model data_list with
   | Some e =>
       inl (HTTPException 500 ("Batch prediction failed: " ++ str e)%string)
   | None =>
       inr {| predictions := scored_results model data_list;
              count := Z.of_nat (List.length (scored_results model data_list)) |}
   end,
   {| prediction_count :=
        prediction_count w + Z.of_nat (scored_prefix model data_list);
      start_time := start_time w;
      model_calls :=
        model_calls w
        ++ map features_of
             (firstn (S (scored_prefix model data_list)) data_list) |}).
Proof.
  unfold predict_batch, try_except, predict_batch_body, bind.
  rewrite predict_batch_loop_run.
  now destruct (first_failure model data_list).
Qed.

End Runs.

(** ** Validation *)

Lemma distance_errors_in_range (at_ : list LocPart) (d : Z) :
  100 <= d <= 5000 -> distance_errors at_ d = [].
Proof.
  intros [Hlo Hhi]. unfold distance_errors.
  destruct (Z.ltb_spec d 100); [lia|].
  destruct (Z.ltb_spec 5000 d); [lia|]. reflexivity.
Qed.

Lemma distance_errors_out_of_range (at_ : list LocPart) (d : Z) :
  d < 100 \/ 5000 < d -> distance_errors at_ d <> [].
Proof.
  intros H. unfold distance_errors.
  destruct (Z.ltb_spec d 100); [discriminate|].
  destruct (Z.ltb_spec 5000 d); [discriminate|lia].
Qed.

Lemma in_range_spec (b : FlightBody) :
  in_range b = true <-> 100 <= body_distance b <= 5000.
Proof.
  unfold in_range. rewrite andb_true_iff, !Z.leb_le. tauto.
Qed.

Lemma validate_FlightData_in_range (b : FlightBody) :
  in_range b = true -> validate_FlightData b = inr (FlightData_of b).
Proof.
  intros H. apply in_range_spec in H. unfold validate_FlightData, FlightData_errors.
  now rewrite distance_errors_in_range.
Qed.

Lemma validate_FlightData_out_of_range (b : FlightBody) :
  in_range b = false ->
  validate_FlightData b = inl (FlightData_errors [LocField "body"] b)
  /\ FlightData_errors [LocField "body"] b <> [].
Proof.
  intros H.
  assert (Hne : FlightData_errors [LocField "body"] b <> []).
  { apply distance_errors_out_of_range.
    destruct (Z.lt_ge_cases (body_distance b) 100); [now left|].
    destruct (Z.lt_ge_cases 5000 (body_distance b)); [now right|].
    assert (in_range b = true) by (apply in_range_spec; lia). congruence. }
  split; [|exact Hne]. unfold validate_FlightData.
  now destruct (FlightData_errors [LocField "body"] b).
Qed.

Lemma list_errors_all_in_range (bs : list FlightBody) :
  forall i, forallb in_range bs = true -> list_errors i bs = [].
Proof.
  induction bs as [|b rest IH]; intros i H; [reflexivity|].
  simpl in H. apply andb_true_iff in H as [Hb Hrest].
  apply in_range_spec in Hb. simpl. unfold FlightData_errors.
  rewrite distance_errors_in_range by exact Hb. now apply IH.
Qed.

Lemma list_errors_some_out_of_range (bs : list FlightBody) :
  forall i, forallb in_range bs = false -> list_errors i bs <> [].
Proof.
  induction bs as [|b rest IH]; intros i H; [discriminate|].
  simpl in H. simpl. intros Happ. apply app_eq_nil in Happ as [Hb Hrest].
  destruct (in_range b) eqn:Eb.
  - simpl in H. now apply (IH (S i)).
  - destruct (validate_FlightData_out_of_range b Eb) as [_ Hne].
    apply Hne. unfold FlightData_errors in *.
    unfold distance_errors in *.
    destruct (body_distance b <? 100); [discriminate|].
    destruct (5000 <? body_distance b); [discriminate|reflexivity].
Qed.

Lemma validate_FlightData_list_in_range (bs : list FlightBody) :
  forallb in_range bs = true ->
  validate_FlightData_list bs = inr (map FlightData_of bs).
Proof.
  intros H. unfold validate_FlightData_list.
  now rewrite list_errors_all_in_range.
Qed.

Lemma validate_FlightData_list_out_of_range (bs : list FlightBody) :
  forallb in_range bs = false ->
  validate_FlightData_list bs = inl (list_errors 0 bs).
Proof.
  intros H. apply (list_errors_some_out_of_range bs 0) in H.
  unfold validate_FlightData_list. now destruct (list_errors 0 bs).
Qed.

(** A body within the bounds reaches the handler as the record of its
    three members. *)
Lemma post_predict_in_range
    (model : Classifier) (body : FlightBody) (w : World) :
  in_range body = true ->
  post_predict model body w = predict_delay model (FlightData_of body) w.
Proof.
  intros H. unfold post_predict. now rewrite validate_FlightData_in_range.
Qed.

Lemma post_predict_batch_in_range
    (model : Classifier) (body : list FlightBody) (w : World) :
  forallb in_range body = true ->
  post_predict_batch model body w
  = predict_batch model (map FlightData_of body) w.
Proof.
  intros H. unfold post_predict_batch.
  now rewrite validate_FlightData_list_in_range.
Qed.

(** A list body with an item out of range never reaches the handler: the
    request is answered with the items' errors and the state is the one
    before the request. *)
Lemma post_predict_batch_out_of_range
    (model : Classifier) (body : list FlightBody) (w : World) :
  forallb in_range body = false ->
  post_predict_batch model body w
  = (inl (RequestValidationError (list_errors 0 body)), w).
Proof.
  intros H. unfold post_predict_batch.
  now rewrite validate_FlightData_list_out_of_range.
Qed.

(** ** Scoring a list of records *)

Section Scoring.

Variable model : Classifier.

Lemma scored_results_threshold (data_list : list FlightData) :
  Forall (fun r => delayed r = (0.5 <? delay_probability r)%float)
         (scored_results model data_list).
Proof.
  induction data_list as [|data rest IH]; simpl; [constructor|].
  destruct (positive_class_probability model (features_of data));
    constructor; [reflexivity | exact IH].
Qed.

Lemma scored_results_length (data_list : list FlightData) :
  List.length (scored_results model data_list) = scored_prefix model data_list.
Proof.
  induction data_list as [|data rest IH]; simpl; [reflexivity|].
  unfold scores.
  destruct (positive_class_probability model (features_of data)); simpl;
    congruence.
Qed.

(** Every record of the list is scored, record [i] with probability [ps[i]]. *)
Lemma all_scored (data_list : list FlightData) (ps : list float) :
  Forall2 (fun data p =>
             positive_class_probability model (features_of data) = inr p)
          data_list ps ->
  first_failure model data_list = None
  /\ scored_prefix model data_list = List.length data_list
  /\ scored_results model data_list
     = map (fun dp => prediction_of (fst dp) (snd dp)) (combine data_list ps).
Proof.
  induction 1 as [|data p rest ps' Hd _ IH]; simpl; [auto|].
  destruct IH as (Hf & Hn & Hr). unfold scores. rewrite Hd.
  repeat split; congruence.
Qed.

(** The records of [pre] are scored and the next one raises [e]. *)
Lemma scored_then_failed (pre post : list FlightData) (data : FlightData)
    (e : PyError) :
  Forall (fun d => exists p,
            positive_class_probability model (features_of d) = inr p) pre ->
  positive_class_probability model (features_of data) = inl e ->
  first_failure model (pre ++ data :: post) = Some e
  /\ scored_prefix model (pre ++ data :: post) = List.length pre.
Proof.
  intros Hpre He. induction Hpre as [|d rest [p Hd] _ IH]; simpl.
  - unfold scores. now rewrite He.
  - unfold scores. rewrite Hd. destruct IH as [Hf Hn]. split; congruence.
Qed.

Lemma positive_class_of_two (X : Features) (p0 p1 : float) :
  predict_proba model X = inr [[p0; p1]] ->
  positive_class_probability model X = inr p1.
Proof. intros H. unfold positive_class_probability. now rewrite H. Qed.

(** ** The counter along the requests *)

Lemma serve_prediction_count (req : Request) (w : World) :
  prediction_count (snd (serve model req w))
  = prediction_count w + Z.of_nat (successful_scorings model req).
Proof.
  destruct req as [body|body| |now|body]; unfold serve, bind; simpl.
  - unfold post_predict. destruct (validate_FlightData body) as [errs|data].
    + simpl. lia.
    + rewrite predict_delay_run.
      now destruct (positive_class_probability model (features_of data)).
  - unfold post_predict_batch.
    destruct (validate_FlightData_list body) as [errs|data_list].
    + simpl. lia.
    + rewrite predict_batch_run. now destruct (first_failure model data_list).
  - lia.
  - unfold metrics. destruct (int_of_float (now - start_time w)); simpl; lia.
  - unfold simulate_error. destruct (raise_error body); simpl; lia.
Qed.

Lemma run_prediction_count_mono (reqs : list Request) :
  forall w, prediction_count w <= prediction_count (run model reqs w).
Proof.
  induction reqs as [|req rest IH]; intros w; simpl; [lia|].
  specialize (IH (snd (serve model req w))).
  rewrite serve_prediction_count in IH. lia.
Qed.

End Scoring.

(** * Properties of the specification *)

(** C1 (the code departs from it). The claim, and the comments above
    [predict_batch], say that the invalid items of a batch are dropped and
    the valid ones answered.  On the batch below, whose second item has
    distance 50, the request is refused as a whole: the answer is the
    validation error of item 1, there is no prediction for items 0 and 2,
    the classifier is not called and the counter does not move. *)
Theorem mixed_batch_is_refused (model : Classifier) (w : World) :
  post_predict_batch model
    [ mkFlightBody "IB3456" 1200 false;
      mkFlightBody "VY1001" 50 true;
      mkFlightBody "UX0042" 800 true ] w
  = (inl (RequestValidationError
            [ {| loc := [LocField "body"; LocIndex 1; LocField "distance"];
                 violated := greater_than_equal 100;
                 input := 50 |} ]),
     w).
Proof. reflexivity. Qed.

(** C2, as stated, fails: a request whose [flight_id] is the empty string
    and whose distance is in range is validated, scored and counted. *)
Lemma empty_flight_id_is_scored :
  post_predict (constant_model 0.75) (mkFlightBody "" 1200 true) (startup 1000)
  = (inr {| res_flight_id := ""; delay_probability := 0.75; delayed := true |},
     {| prediction_count := 1; start_time := 1000;
        model_calls := [ [[1200; 1]] ] |}).
Proof. reflexivity. Qed.

(** C2 (amended). A prediction request whose distance is below 100 or
    above 5000 is answered with a validation error (status 422), whatever
    its [flight_id]; the classifier is not called and [prediction_count]
    is the one before the request.  An empty [flight_id] is no ground for
    refusal: a request whose distance is within the bounds, with any
    string as [flight_id], the empty one included, is validated with its
    three members as sent and is not answered with a validation error;
    the classifier is called on its row, and the request is counted when
    the scoring succeeds. *)
Theorem distance_alone_decides_validation
    (model : Classifier) (body : FlightBody) (w : World) :
  (body_distance body < 100 \/ 5000 < body_distance body ->
   exists errors,
     errors <> []
     /\ post_predict model body w = (inl (RequestValidationError errors), w)
     /\ status_of (RequestValidationError errors) = 422
     /\ model_calls (snd (post_predict model body w)) = model_calls w
     /\ prediction_count (snd (post_predict model body w))
        = prediction_count w)
  /\ (100 <= body_distance body <= 5000 ->
     validate_FlightData body
     = inr {| flight_id := body_flight_id body;
              distance := body_distance body;
              bad_weather := body_bad_weather body |}
     /\ (forall errors,
          fst (post_predict model body w)
          <> inl (RequestValidationError errors))
     /\ model_calls (snd (post_predict model body w))
        = model_calls w
          ++ [ [[body_distance body; Z.b2z (body_bad_weather body)]] ]
     /\ (forall p,
          positive_class_probability model
            [[body_distance body; Z.b2z (body_bad_weather body)]] = inr p ->
          prediction_count (snd (post_predict model body w))
          = prediction_count w + 1)).
Proof.
  split.
  - intros H.
    assert (Hr : in_range body = false).
    { destruct (in_range body) eqn:E; [|reflexivity].
      apply in_range_spec in E. lia. }
    destruct (validate_FlightData_out_of_range body Hr) as [Hv Hne].
    exists (FlightData_errors [LocField "body"] body).
    unfold post_predict. rewrite Hv. repeat split. exact Hne.
  - intros H. apply in_range_spec in H.
    rewrite post_predict_in_range by exact H.
    rewrite predict_delay_run. unfold scores, features_of, FlightData_of.
    cbn [fst snd model_calls prediction_count flight_id distance bad_weather].
    split; [now apply validate_FlightData_in_range|]. split; [|split].
    + intros errors.
      destruct (positive_class_probability model
                  [[body_distance body; Z.b2z (body_bad_weather body)]]);
        discriminate.
    + reflexivity.
    + intros p Hp. now rewrite Hp.
Qed.

(** C2 (amended), at distances 50 and 6000, and at distance 100 with an
    empty [flight_id]. *)
Lemma distance_alone_decides_validation_run :
  (exists errors,
     errors <> []
     /\ post_predict (constant_model 0.75) (mkFlightBody "IB3456" 50 false)
          (startup 1000)
        = (inl (RequestValidationError errors), startup 1000)
     /\ status_of (RequestValidationError errors) = 422
     /\ model_calls (snd (post_predict (constant_model 0.75)
                            (mkFlightBody "IB3456" 50 false) (startup 1000)))
        = model_calls (startup 1000)
     /\ prediction_count (snd (post_predict (constant_model 0.75)
                                 (mkFlightBody "IB3456" 50 false) (startup 1000)))
        = prediction_count (startup 1000))
  /\ (exists errors,
     errors <> []
     /\ post_predict (constant_model 0.75) (mkFlightBody "" 6000 true)
          (startup 1000)
        = (inl (RequestValidationError errors), startup 1000)
     /\ status_of (RequestValidationError errors) = 422
     /\ model_calls (snd (post_predict (constant_model 0.75)
                            (mkFlightBody "" 6000 true) (startup 1000)))
        = model_calls (startup 1000)
     /\ prediction_count (snd (post_predict (constant_model 0.75)
                                 (mkFlightBody "" 6000 true) (startup 1000)))
        = prediction_count (startup 1000))
  /\ (validate_FlightData (mkFlightBody "" 100 true)
     = inr {| flight_id := body_flight_id (mkFlightBody "" 100 true);
              distance := body_distance (mkFlightBody "" 100 true);
              bad_weather := body_bad_weather (mkFlightBody "" 100 true) |}
     /\ (forall errors,
          fst (post_predict (constant_model 0.75) (mkFlightBody "" 100 true)
                 (startup 1000))
          <> inl (RequestValidationError errors))
     /\ model_calls (snd (post_predict (constant_model 0.75)
                            (mkFlightBody "" 100 true) (startup 1000)))
        = model_calls (startup 1000)
          ++ [ [[body_distance (mkFlightBody "" 100 true);
                 Z.b2z (body_bad_weather (mkFlightBody "" 100 true))]] ]
     /\ (forall p,
          positive_class_probability (constant_model 0.75)
            [[body_distance (mkFlightBody "" 100 true);
              Z.b2z (body_bad_weather (mkFlightBody "" 100 true))]] = inr p ->
          prediction_count (snd (post_predict (constant_model 0.75)
                                   (mkFlightBody "" 100 true) (startup 1000)))
          = prediction_count (startup 1000) + 1)).
Proof.
  split; [|split].
  - apply (proj1 (distance_alone_decides_validation (constant_model 0.75)
                    (mkFlightBody "IB3456" 50 false) (startup 1000))).
    left. simpl. lia.
  - apply (proj1 (distance_alone_decides_validation (constant_model 0.75)
                    (mkFlightBody "" 6000 true) (startup 1000))).
    right. simpl. lia.
  - apply (proj2 (distance_alone_decides_validation (constant_model 0.75)
                    (mkFlightBody "" 100 true) (startup 1000))).
    simpl. lia.
Defined.

(** C3. In every prediction either handler returns, [delayed] is the
    strict comparison [delay_probability > 0.5]; a record the classifier
    gives exactly 0.5 is answered, with [delayed] false. *)
Theorem delayed_is_strictly_above_half (model : Classifier) :
  (forall data w r w',
     predict_delay model data w = (inr r, w') ->
     delayed r = (0.5 <? delay_probability r)%float)
  /\ (forall data_list w b w',
     predict_batch model data_list w = (inr b, w') ->
     Forall (fun r => delayed r = (0.5 <? delay_probability r)%float)
            (predictions b))
  /\ (forall data w,
     positive_class_probability model
       [[distance data; Z.b2z (bad_weather data)]] = inr 0.5%float ->
     fst (predict_delay model data w)
     = inr {| res_flight_id := flight_id data;
              delay_probability := 0.5; delayed := false |}
     /\ fst (predict_batch model [data] w)
        = inr {| predictions :=
                   [ {| res_flight_id := flight_id data;
                        delay_probability := 0.5; delayed := false |} ];
                 count := 1 |}).
Proof.
  repeat split.
  - intros data w r w' H. rewrite predict_delay_run in H.
    destruct (positive_class_probability model (features_of data));
      inversion H; reflexivity.
  - intros data_list w b w' H. rewrite predict_batch_run in H.
    destruct (first_failure model data_list); inversion H; simpl.
    apply scored_results_threshold.
  - rewrite predict_delay_run. unfold features_of. now rewrite H.
  - rewrite predict_batch_run. simpl. unfold features_of. now rewrite H.
Qed.

(** C3, with a classifier that answers 0.5 to every record. *)
Lemma delayed_at_exactly_half :
  fst (predict_delay (constant_model 0.5) (mkFlightData "IB3456" 1200 true)
         (startup 1000))
  = inr {| res_flight_id := "IB3456";
           delay_probability := 0.5; delayed := false |}
  /\ fst (predict_batch (constant_model 0.5)
            [mkFlightData "IB3456" 1200 true] (startup 1000))
     = inr {| predictions :=
                [ {| res_flight_id := "IB3456";
                     delay_probability := 0.5; delayed := false |} ];
              count := 1 |}.
Proof.
  apply (proj2 (proj2 (delayed_is_strictly_above_half (constant_model 0.5)))
           (mkFlightData "IB3456" 1200 true) (startup 1000)).
  reflexivity.
Defined.

(** C4. Both handlers call the classifier on the one-row matrix
    [[distance, int(bad_weather)]] of the record, the single handler once
    and the batch handler once per record, in order, up to and with the
    first record whose scoring fails; and when the classifier answers a
    record with the two-class row [[p0, p1]], the [delay_probability]
    returned for it is [p1]. *)
Theorem classifier_gets_distance_then_weather (model : Classifier) :
  (forall data w,
     model_calls (snd (predict_delay model data w))
     = model_calls w ++ [ [[distance data; Z.b2z (bad_weather data)]] ])
  /\ (forall data_list w,
     model_calls (snd (predict_batch model data_list w))
     = model_calls w
       ++ map (fun data => [[distance data; Z.b2z (bad_weather data)]])
            (firstn (S (scored_prefix model data_list)) data_list))
  /\ (forall data w p0 p1,
     predict_proba model [[distance data; Z.b2z (bad_weather data)]]
     = inr [[p0; p1]] ->
     exists r w',
       predict_delay model data w = (inr r, w')
       /\ delay_probability r = p1)
  /\ (forall data_list w rows,
     Forall2 (fun data row =>
                predict_proba model
                  [[distance data; Z.b2z (bad_weather data)]]
                = inr [[fst row; snd row]])
             data_list rows ->
     exists b w',
       predict_batch model data_list w = (inr b, w')
       /\ map delay_probability (predictions b) = map snd rows
       /\ model_calls w'
          = model_calls w
            ++ map (fun data => [[distance data; Z.b2z (bad_weather data)]])
                 data_list).
Proof.
  split; [|split; [|split]].
  - intros data w. now rewrite predict_delay_run.
  - intros data_list w. now rewrite predict_batch_run.
  - intros data w p0 p1 H. apply positive_class_of_two in H.
    rewrite predict_delay_run. fold (features_of data) in H. rewrite H.
    eexists _, _. split; reflexivity.
  - intros data_list w rows H.
    assert (Hs : Forall2 (fun data p =>
                   positive_class_probability model (features_of data) = inr p)
                   data_list (map snd rows)).
    { induction H as [|data row ds rs Hrow _ IH]; simpl; constructor.
      - now apply positive_class_of_two in Hrow.
      - exact IH. }
    destruct (all_scored model data_list (map snd rows) Hs) as (Hf & Hn & Hr).
    rewrite predict_batch_run, Hf, Hn, Hr.
    rewrite firstn_all2 by lia.
    eexists _, _. split; [reflexivity|]. simpl. split.
    + clear -H. induction H; simpl; [reflexivity | now f_equal].
    + reflexivity.
Qed.

(** C4, on one record with bad weather. *)
Lemma classifier_gets_distance_then_weather_run :
  (exists r w',
     predict_delay (constant_model 0.75) (mkFlightData "IB3456" 1200 true)
       (startup 1000) = (inr r, w')
     /\ delay_probability r = 0.75%float)
  /\ model_calls (snd (predict_delay (constant_model 0.75)
                         (mkFlightData "IB3456" 1200 true) (startup 1000)))
     = [ [[1200; 1]] ].
Proof.
  split.
  - apply (proj1 (proj2 (proj2
             (classifier_gets_distance_then_weather (constant_model 0.75))))
             (mkFlightData "IB3456" 1200 true) (startup 1000) 0.25%float).
    reflexivity.
  - apply (proj1 (classifier_gets_distance_then_weather (constant_model 0.75))
             (mkFlightData "IB3456" 1200 true) (startup 1000)).
Defined.

(** C5. When scoring a record succeeds with probability [p], the single
    handler returns the record's [flight_id], [p] and [p > 0.5], and leaves
    [prediction_count] one above its value before the request. *)
Theorem scored_prediction_counts_once
    (model : Classifier) (data : FlightData) (w : World) (p : float) :
  positive_class_probability model
    [[distance data; Z.b2z (bad_weather data)]] = inr p ->
  predict_delay model data w
  = (inr {| res_flight_id := flight_id data;
            delay_probability := p;
            delayed := (0.5 <? p)%float |},
     {| prediction_count := prediction_count w + 1;
        start_time := start_time w;
        model_calls :=
          model_calls w ++ [ [[distance data; Z.b2z (bad_weather data)]] ] |}).
Proof.
  intros H. rewrite predict_delay_run. unfold scores, features_of.
  now rewrite H.
Qed.

(** C5, from a counter at 41. *)
Lemma scored_prediction_counts_once_run :
  predict_delay (constant_model 0.75) (mkFlightData "IB3456" 1200 true)
    (mkWorld 41 1000 [])
  = (inr {| res_flight_id := "IB3456";
            delay_probability := 0.75;
            delayed := (0.5 <? 0.75)%float |},
     {| prediction_count := 41 + 1;
        start_time := 1000;
        model_calls := [] ++ [ [[1200; Z.b2z true]] ] |}).
Proof.
  apply (scored_prediction_counts_once (constant_model 0.75)
           (mkFlightData "IB3456" 1200 true) (mkWorld 41 1000 []) 0.75%float).
  reflexivity.
Defined.

(** C6. When the [try] block of the single handler raises [e] (the
    classifier call, or the indexing of its answer), the request fails with
    [HTTPException(500, "Prediction failed: " + str(e))] and
    [prediction_count] is the one before the request. *)
Theorem failed_prediction_is_not_counted
    (model : Classifier) (data : FlightData) (w : World) :
  (forall e w1,
     predict_delay_body model data w = (inl e, w1) ->
     predict_delay model data w
     = (inl (HTTPException 500 ("Prediction failed: " ++ str e)%string), w1)
     /\ prediction_count w1 = prediction_count w)
  /\ (forall e,
     positive_class_probability model
       [[distance data; Z.b2z (bad_weather data)]] = inl e ->
     predict_delay model data w
     = (inl (HTTPException 500 ("Prediction failed: " ++ str e)%string),
        {| prediction_count := prediction_count w;
           start_time := start_time w;
           model_calls :=
             model_calls w
             ++ [ [[distance data; Z.b2z (bad_weather data)]] ] |}))
  /\ (forall e w1,
     predict_delay model data w = (inl e, w1) ->
     status_of e = 500 /\ prediction_count w1 = prediction_count w).
Proof.
  split; [|split].
  - intros e w1 H. unfold predict_delay, try_except. rewrite H.
    split; [reflexivity|]. rewrite predict_delay_body_run in H.
    unfold scores in H.
    destruct (positive_class_probability model (features_of data));
      inversion H; simpl; lia.
  - intros e H. rewrite predict_delay_run. unfold scores, features_of.
    rewrite H. simpl. now rewrite Z.add_0_r.
  - intros e w1 H. rewrite predict_delay_run in H. unfold scores in H.
    destruct (positive_class_probability model (features_of data));
      inversion H; simpl; split; lia.
Qed.

(** C6, with a classifier that raises on every call. *)
Lemma failed_prediction_is_not_counted_run :
  predict_delay broken_model (mkFlightData "IB3456" 1200 true)
    (mkWorld 41 1000 [])
  = (inl (HTTPException 500 "Prediction failed: model is not fitted"),
     mkWorld 41 1000 [ [[1200; 1]] ]).
Proof.
  apply (proj1 (proj2 (failed_prediction_is_not_counted broken_model
           (mkFlightData "IB3456" 1200 true) (mkWorld 41 1000 [])))
           (mkPyError "ValueError" "model is not fitted")).
  reflexivity.
Defined.

(** C7. An empty batch is answered with no prediction and [count] 0, and
    the state is the one before the request. *)
Theorem empty_batch_is_answered (model : Classifier) (w : World) :
  post_predict_batch model [] w = (inr {| predictions := []; count := 0 |}, w)
  /\ predict_batch model [] w = (inr {| predictions := []; count := 0 |}, w).
Proof. split; reflexivity. Qed.

(** C8, as stated, fails for one kind of failed request: a batch whose
    second record makes the classifier raise is answered with a 500, and
    [prediction_count] has moved from 0 to 1. *)
Lemma failed_batch_moves_the_counter :
  serve fair_weather_model
    (POST_predict_batch [ mkFlightBody "IB3456" 1200 false;
                          mkFlightBody "VY1001" 800 true ])
    (startup 1000)
  = (inl (HTTPException 500 "Batch prediction failed: bad weather row"),
     {| prediction_count := 1; start_time := 1000;
        model_calls := [ [[1200; 0]]; [[800; 1]] ] |}).
Proof. reflexivity. Qed.

(** C8 (amended). [prediction_count] starts at 0, never decreases and is
    never negative.  A request adds to it the number of records it scored
    successfully and nothing else: 1 for an answered single prediction,
    [count] for an answered batch.  Reading the metrics, [info], the error
    simulation, a request refused by validation and a single prediction
    whose scoring raises leave it as it was.  A request that ends in
    failure keeps the increments of the records it scored before. *)
Theorem prediction_count_grows_by_scoring_only (model : Classifier) :
  (forall now, prediction_count (startup now) = 0)
  /\ (forall req w,
     prediction_count (snd (serve model req w))
     = prediction_count w + Z.of_nat (successful_scorings model req))
  /\ (forall reqs w, prediction_count w <= prediction_count (run model reqs w))
  /\ (forall reqs now, 0 <= prediction_count (run model reqs (startup now)))
  /\ (forall body w r w',
     post_predict model body w = (inr r, w') ->
     prediction_count w' = prediction_count w + 1)
  /\ (forall body w b w',
     post_predict_batch model body w = (inr b, w') ->
     prediction_count w' = prediction_count w + count b
     /\ count b = Z.of_nat (List.length (predictions b)))
  /\ (forall body w,
     in_range body = false ->
     snd (serve model (POST_predict body) w) = w)
  /\ (forall body w e,
     positive_class_probability model
       [[body_distance body; Z.b2z (body_bad_weather body)]] = inl e ->
     prediction_count (snd (serve model (POST_predict body) w))
     = prediction_count w)
  /\ (forall body w,
     forallb in_range body = false ->
     snd (serve model (POST_predict_batch body) w) = w)
  /\ (forall now w, snd (serve model (GET_metrics now) w) = w)
  /\ (forall w, snd (serve model GET_info w) = w)
  /\ (forall body w, snd (serve model (POST_simulate_error body) w) = w).
Proof.
  repeat match goal with |- _ /\ _ => split end.
  - reflexivity.
  - apply serve_prediction_count.
  - intros reqs w. apply run_prediction_count_mono.
  - intros reqs now.
    apply (Z.le_trans _ (prediction_count (startup now))); [simpl; lia|].
    apply run_prediction_count_mono.
  - intros body w r w'. unfold post_predict.
    destruct (validate_FlightData body) as [errs|data]; [discriminate|].
    rewrite predict_delay_run. unfold scores.
    destruct (positive_class_probability model (features_of data));
      intros H; inversion H; reflexivity.
  - intros body w b w'. unfold post_predict_batch.
    destruct (validate_FlightData_list body) as [errs|data_list];
      [discriminate|].
    rewrite predict_batch_run.
    destruct (first_failure model data_list); intros H; inversion H; simpl.
    now rewrite scored_results_length.
  - intros body w H. unfold serve, bind, post_predict.
    destruct (validate_FlightData_out_of_range body H) as [Hv _].
    now rewrite Hv.
  - intros body w e H. rewrite serve_prediction_count.
    cbn [successful_scorings].
    destruct (in_range body) eqn:Er.
    + rewrite validate_FlightData_in_range by exact Er.
      unfold scores, features_of, FlightData_of.
      cbn [distance bad_weather]. rewrite H. simpl. lia.
    + destruct (validate_FlightData_out_of_range body Er) as [Hv _].
      rewrite Hv. simpl. lia.
  - intros body w H. unfold serve, bind.
    now rewrite post_predict_batch_out_of_range.
  - intros now w. unfold serve, bind, metrics.
    now destruct (int_of_float (now - start_time w)).
  - reflexivity.
  - intros body w. unfold serve, bind, simulate_error.
    now destruct (raise_error body).
Qed.

(** C8 (amended), along six requests of which one is scored. *)
Lemma prediction_count_along_a_session :
  prediction_count
    (run fair_weather_model
       [ POST_predict (mkFlightBody "IB3456" 1200 false);
         GET_metrics 1012.5;
         POST_predict (mkFlightBody "VY1001" 800 true);
         POST_simulate_error (mkErrorData true);
         POST_predict_batch [ mkFlightBody "UX0042" 50 false ];
         GET_info ]
       (startup 1000)) = 1
  /\ 0 <= prediction_count
       (run fair_weather_model
          [ POST_predict (mkFlightBody "IB3456" 1200 false);
            GET_metrics 1012.5;
            POST_predict (mkFlightBody "VY1001" 800 true);
            POST_simulate_error (mkErrorData true);
            POST_predict_batch [ mkFlightBody "UX0042" 50 false ];
            GET_info ]
          (startup 1000)).
Proof.
  split.
  - reflexivity.
  - apply (proj1 (proj2 (proj2 (proj2
             (prediction_count_grows_by_scoring_only fair_weather_model))))).
Defined.

(** C9. With [raise_error] true the simulator raises
    [HTTPException(418, "Este es un error simulado para enseñar manejo")];
    no failure of the two prediction endpoints has that status (theirs are
    422 for validation and 500 for scoring).  With [raise_error] false it
    answers [{"status": "ok", "message": "No se produjo error"}].  Either
    way the state is untouched and the answer does not depend on it. *)
Theorem simulate_error_contract (model : Classifier) :
  (forall w,
     simulate_error {| raise_error := true |} w
     = (inl (HTTPException 418
               "Este es un error simulado para enseñar manejo"), w))
  /\ (forall w,
     simulate_error {| raise_error := false |} w
     = (inr {| status := "ok"; message := "No se produjo error" |}, w))
  /\ status_of (HTTPException 418
                  "Este es un error simulado para enseñar manejo") = 418
  /\ (forall body w e w',
     post_predict model body w = (inl e, w') ->
     (status_of e = 422 \/ status_of e = 500) /\ status_of e <> 418)
  /\ (forall body w e w',
     post_predict_batch model body w = (inl e, w') ->
     (status_of e = 422 \/ status_of e = 500) /\ status_of e <> 418)
  /\ (forall data w1 w2,
     fst (simulate_error data w1) = fst (simulate_error data w2))
  /\ (forall data w, snd (simulate_error data w) = w).
Proof.
  repeat match goal with |- _ /\ _ => split end.
  - reflexivity.
  - reflexivity.
  - reflexivity.
  - intros body w e w'. unfold post_predict.
    destruct (validate_FlightData body) as [errs|data].
    + intros H. inversion H. simpl. split; [now left | lia].
    + rewrite predict_delay_run.
      destruct (positive_class_probability model (features_of data));
        intros H; inversion H. simpl. split; [now right | lia].
  - intros body w e w'. unfold post_predict_batch.
    destruct (validate_FlightData_list body) as [errs|data_list].
    + intros H. inversion H. simpl. split; [now left | lia].
    + rewrite predict_batch_run.
      destruct (first_failure model data_list); intros H; inversion H.
      simpl. split; [now right | lia].
  - intros data w1 w2. unfold simulate_error. now destruct (raise_error data).
  - intros data w. unfold simulate_error. now destruct (raise_error data).
Qed.

(** C10. When the records before the [k]-th of a batch are scored and the
    [k]-th makes the scoring raise [e], the batch handler fails with
    [HTTPException(500, "Batch prediction failed: " + str(e))], no
    prediction is returned, and [prediction_count] stands [k - 1] above
    its value before the request. *)
Theorem failed_batch_keeps_earlier_increments
    (model : Classifier) (pre post : list FlightData) (data : FlightData)
    (e : PyError) (w : World) :
  Forall (fun d => exists p,
            positive_class_probability model
              [[distance d; Z.b2z (bad_weather d)]] = inr p) pre ->
  positive_class_probability model
    [[distance data; Z.b2z (bad_weather data)]] = inl e ->
  predict_batch model (pre ++ data :: post) w
  = (inl (HTTPException 500 ("Batch prediction failed: " ++ str e)%string),
     {| prediction_count := prediction_count w + Z.of_nat (List.length pre);
        start_time := start_time w;
        model_calls :=
          model_calls w
          ++ map (fun d => [[distance d; Z.b2z (bad_weather d)]])
               (pre ++ [data]) |}).
Proof.
  intros Hpre He.
  destruct (scored_then_failed model pre post data e Hpre He) as [Hf Hn].
  rewrite predict_batch_run, Hf, Hn. f_equal. f_equal. f_equal.
  clear. induction pre as [|d rest IH]; simpl; [reflexivity|].
  destruct rest; simpl in *; now f_equal.
Qed.

(** C10, with the failure at the third of four records. *)
Lemma failed_batch_keeps_earlier_increments_run :
  predict_batch fair_weather_model
    ([ mkFlightData "IB3456" 1200 false; mkFlightData "UX0042" 800 false ]
     ++ mkFlightData "VY1001" 2500 true :: [ mkFlightData "AF0007" 400 false ])
    (mkWorld 40 1000 [])
  = (inl (HTTPException 500 "Batch prediction failed: bad weather row"),
     {| prediction_count := 40 + 2;
        start_time := 1000;
        model_calls := [ [[1200; 0]]; [[800; 0]]; [[2500; 1]] ] |}).
Proof.
  apply (failed_batch_keeps_earlier_increments fair_weather_model
           [ mkFlightData "IB3456" 1200 false; mkFlightData "UX0042" 800 false ]
           [ mkFlightData "AF0007" 400 false ]
           (mkFlightData "VY1001" 2500 true)
           (mkPyError "ValueError" "bad weather row")
           (mkWorld 40 1000 [])).
  - repeat constructor; exists 0.75%float; reflexivity.
  - reflexivity.
Defined.

(** * Further properties of the service *)

(** ** What validation lets through *)

Lemma validate_FlightData_inr (b : FlightBody) (data : FlightData) :
  validate_FlightData b = inr data ->
  data = FlightData_of b /\ in_range b = true.
Proof.
  intros H. destruct (in_range b) eqn:E.
  - rewrite validate_FlightData_in_range in H by exact E.
    split; congruence.
  - destruct (validate_FlightData_out_of_range b E) as [Hv _]. congruence.
Qed.

Lemma validate_FlightData_list_inr
    (bs : list FlightBody) (data_list : list FlightData) :
  validate_FlightData_list bs = inr data_list ->
  data_list = map FlightData_of bs /\ forallb in_range bs = true.
Proof.
  intros H. destruct (forallb in_range bs) eqn:E.
  - rewrite validate_FlightData_list_in_range in H by exact E.
    split; congruence.
  - rewrite validate_FlightData_list_out_of_range in H by exact E.
    discriminate.
Qed.

Lemma FlightData_errors_length (at_ : list LocPart) (b : FlightBody) :
  List.length (FlightData_errors at_ b)
  = if in_range b then O else 1%nat.
Proof.
  unfold FlightData_errors, distance_errors, in_range.
  destruct (Z.ltb_spec (body_distance b) 100);
    destruct (Z.ltb_spec 5000 (body_distance b));
    destruct (Z.leb_spec 100 (body_distance b));
    destruct (Z.leb_spec (body_distance b) 5000);
    simpl; try reflexivity; lia.
Qed.

Lemma list_errors_length (bs : list FlightBody) :
  forall i,
    List.length (list_errors i bs)
    = List.length (filter (fun b => negb (in_range b)) bs).
Proof.
  induction bs as [|b rest IH]; intros i; simpl; [reflexivity|].
  rewrite length_app, FlightData_errors_length, IH.
  now destruct (in_range b).
Qed.

(** ** Lists of records that are all scored *)

Section AllScored.

Variable model : Classifier.

Lemma first_failure_none (data_list : list FlightData) :
  first_failure model data_list = None ->
  scored_prefix model data_list = List.length data_list
  /\ map res_flight_id (scored_results model data_list)
     = map flight_id data_list
  /\ Forall2 (fun data r =>
                positive_class_probability model (features_of data)
                = inr (delay_probability r)
                /\ r = prediction_of data (delay_probability r))
             data_list (scored_results model data_list).
Proof.
  induction data_list as [|data rest IH]; simpl.
  - intros _. repeat split. constructor.
  - unfold scores.
    destruct (positive_class_probability model (features_of data))
      as [e|p] eqn:E; [discriminate|].
    intros H. destruct (IH H) as (Hn & Hi & Hf).
    repeat split; simpl; try congruence.
    constructor; [split; [exact E | reflexivity] | exact Hf].
Qed.

Lemma first_failure_app (l1 l2 : list FlightData) :
  first_failure model l1 = None ->
  first_failure model (l1 ++ l2) = first_failure model l2
  /\ scored_results model (l1 ++ l2)
     = scored_results model l1 ++ scored_results model l2
  /\ scored_prefix model (l1 ++ l2)
     = (List.length l1 + scored_prefix model l2)%nat.
Proof.
  induction l1 as [|data rest IH]; simpl; [auto|].
  unfold scores.
  destruct (positive_class_probability model (features_of data)) as [e|p];
    [discriminate|].
  intros H. destruct (IH H) as (Hf & Hr & Hn).
  repeat split; simpl; congruence.
Qed.

Lemma successful_calls_of_batch (data_list : list FlightData) :
  List.length
    (filter (call_scores model)
       (map features_of
          (firstn (S (scored_prefix model data_list)) data_list)))
  = scored_prefix model data_list.
Proof.
  induction data_list as [|data rest IH]; [reflexivity|].
  cbn [scored_prefix]. unfold scores.
  destruct (positive_class_probability model (features_of data)) as [e|p] eqn:E.
  - cbn [firstn map filter].
    replace (call_scores model (features_of data)) with false
      by (unfold call_scores; now rewrite E).
    reflexivity.
  - change (firstn (S (S (scored_prefix model rest))) (data :: rest))
      with (data :: firstn (S (scored_prefix model rest)) rest).
    cbn [map filter].
    replace (call_scores model (features_of data)) with true
      by (unfold call_scores; now rewrite E).
    cbn [List.length]. now rewrite IH.
Qed.

(** ** The state after a request, and after a session *)

Lemma serve_world (req : Request) (w : World) :
  snd (serve model req w)
  = {| prediction_count :=
         prediction_count w + Z.of_nat (successful_scorings model req);
       start_time := start_time w;
       model_calls := model_calls w ++ request_calls model req |}.
Proof.
  assert (Hw : {| prediction_count := prediction_count w + 0;
                  start_time := start_time w;
                  model_calls := model_calls w ++ [] |} = w).
  { destruct w. simpl. now rewrite Z.add_0_r, app_nil_r. }
  destruct req as [body|body| |now|body]; unfold serve, bind; simpl.
  - unfold post_predict. destruct (validate_FlightData body) as [errs|data].
    + simpl. now rewrite Hw.
    + rewrite predict_delay_run.
      now destruct (positive_class_probability model (features_of data)).
  - unfold post_predict_batch.
    destruct (validate_FlightData_list body) as [errs|data_list].
    + simpl. now rewrite Hw.
    + rewrite predict_batch_run. now destruct (first_failure model data_list).
  - now rewrite Hw.
  - unfold metrics. rewrite Hw.
    now destruct (int_of_float (now - start_time w)).
  - unfold simulate_error. rewrite Hw. now destruct (raise_error body).
Qed.

Lemma run_world (reqs : list Request) :
  forall w,
    run model reqs w
    = {| prediction_count :=
           prediction_count w + Z.of_nat (session_scorings model reqs);
         start_time := start_time w;
         model_calls :=
           model_calls w ++ flat_map (request_calls model) reqs |}.
Proof.
  induction reqs as [|req rest IH]; intros w.
  - destruct w. simpl. now rewrite Z.add_0_r, app_nil_r.
  - cbn [run session_scorings flat_map]. rewrite IH, serve_world.
    cbn [prediction_count start_time model_calls].
    rewrite Nat2Z.inj_add, Z.add_assoc, app_assoc. reflexivity.
Qed.

Lemma request_calls_successes (req : Request) :
  List.length (filter (call_scores model) (request_calls model req))
  = successful_scorings model req.
Proof.
  destruct req as [body|body| |now|body]; simpl; try reflexivity.
  - destruct (validate_FlightData body) as [errs|data]; [reflexivity|].
    simpl. unfold call_scores, scores.
    now destruct (positive_class_probability model (features_of data)).
  - destruct (validate_FlightData_list body) as [errs|data_list];
      [reflexivity|].
    apply successful_calls_of_batch.
Qed.

Lemma session_calls_successes (reqs : list Request) :
  List.length (filter (call_scores model)
                 (flat_map (request_calls model) reqs))
  = session_scorings model reqs.
Proof.
  induction reqs as [|req rest IH]; simpl; [reflexivity|].
  now rewrite filter_app, length_app, request_calls_successes, IH.
Qed.

Lemma session_scorings_app (l1 l2 : list Request) :
  session_scorings model (l1 ++ l2)
  = (session_scorings model l1 + session_scorings model l2)%nat.
Proof.
  induction l1 as [|req rest IH]; simpl; [reflexivity|]. rewrite IH. lia.
Qed.

Lemma session_scorings_perm (l1 l2 : list Request) :
  Permutation l1 l2 ->
  session_scorings model l1 = session_scorings model l2.
Proof.
  induction 1; simpl; lia.
Qed.

End AllScored.

Section Sessions.

Variable model : Classifier.

Lemma serve_bookkeeping (req : Request) (w : World) :
  is_prediction req = false -> snd (serve model req w) = w.
Proof.
  destruct req as [body|body| |now|body]; try discriminate; intros _;
    unfold serve, bind.
  - reflexivity.
  - unfold metrics. now destruct (int_of_float (now - start_time w)).
  - unfold simulate_error. now destruct (raise_error body).
Qed.

Lemma validated_rows_are_in_bounds (bs : list FlightBody) :
  forallb in_range bs = true ->
  forall n,
    Forall (fun X => exists d b, X = [[d; Z.b2z b]] /\ 100 <= d <= 5000)
           (map features_of (firstn n (map FlightData_of bs))).
Proof.
  induction bs as [|b rest IH]; intros H n.
  - destruct n; constructor.
  - simpl in H. apply andb_true_iff in H as [Hb Hrest].
    destruct n as [|n]; [constructor|].
    simpl. constructor; [|now apply IH].
    exists (body_distance b), (body_bad_weather b).
    split; [reflexivity | now apply in_range_spec].
Qed.

Lemma request_calls_in_bounds (req : Request) :
  Forall (fun X => exists d b, X = [[d; Z.b2z b]] /\ 100 <= d <= 5000)
         (request_calls model req).
Proof.
  destruct req as [body|body| |now|body]; cbn [request_calls];
    try constructor.
  - destruct (validate_FlightData body) as [errs|data] eqn:E;
      [constructor|].
    apply validate_FlightData_inr in E as [-> Hr].
    constructor; [|constructor].
    exists (body_distance body), (body_bad_weather body).
    split; [reflexivity | now apply in_range_spec].
  - destruct (validate_FlightData_list body) as [errs|data_list] eqn:E;
      [constructor|].
    apply validate_FlightData_list_inr in E as [-> Hr].
    now apply validated_rows_are_in_bounds.
Qed.

(** The items of a list body that is validated and scored throughout, sent
    one by one. *)
Lemma singles_of_a_scored_batch (body : list FlightBody) :
  forallb in_range body = true ->
  first_failure model (map FlightData_of body) = None ->
  session_scorings model (map POST_predict body) = List.length body
  /\ flat_map (request_calls model) (map POST_predict body)
     = map features_of (map FlightData_of body)
  /\ Forall2 (fun item r =>
                forall w0, fst (post_predict model item w0) = inr r)
             body (scored_results model (map FlightData_of body)).
Proof.
  induction body as [|b rest IH]; simpl.
  - intros _ _. repeat split. constructor.
  - intros Hr Hf. apply andb_true_iff in Hr as [Hb Hrest].
    rewrite (validate_FlightData_in_range b Hb). unfold scores.
    destruct (positive_class_probability model (features_of (FlightData_of b)))
      as [e|p] eqn:E; [discriminate|].
    destruct (IH Hrest Hf) as (Hn & Hc & Hs).
    repeat split; simpl; try congruence.
    constructor; [|exact Hs].
    intros w0. rewrite post_predict_in_range by exact Hb.
    rewrite predict_delay_run. now rewrite E.
Qed.

End Sessions.

(** X1. Of the bodies whose [flight_id] is a string, whose [distance] is
    an integer and whose [bad_weather] is a boolean, the schema lets
    through exactly those with a distance between 100 and 5000, both
    included, and the record the handler gets then holds the three values
    of the body. *)
Theorem validation_accepts_exactly_the_bounds
    (b : FlightBody) (data : FlightData) :
  validate_FlightData b = inr data
  <-> (100 <= body_distance b <= 5000
       /\ data = {| flight_id := body_flight_id b;
                    distance := body_distance b;
                    bad_weather := body_bad_weather b |}).
Proof.
  split.
  - intros H. apply validate_FlightData_inr in H as [-> Hr].
    split; [now apply in_range_spec | reflexivity].
  - intros [Hr ->]. apply in_range_spec in Hr.
    now rewrite validate_FlightData_in_range.
Qed.

(** X2. A batch in which some item has its distance out of bounds is
    refused as a whole, with one error per such item; the handler does not
    run, so the state is the one before the request. *)
Theorem batch_with_an_invalid_item_is_refused
    (model : Classifier) (body : list FlightBody) (item : FlightBody)
    (w : World) :
  In item body ->
  body_distance item < 100 \/ 5000 < body_distance item ->
  exists errors,
    post_predict_batch model body w
    = (inl (RequestValidationError errors), w)
    /\ errors <> []
    /\ List.length errors
       = List.length (filter (fun b => negb (in_range b)) body).
Proof.
  intros Hin Hout.
  assert (Hr : forallb in_range body = false).
  { destruct (forallb in_range body) eqn:E; [|reflexivity].
    rewrite forallb_forall in E. specialize (E item Hin).
    apply in_range_spec in E. lia. }
  exists (list_errors 0 body). split; [|split].
  - now apply post_predict_batch_out_of_range.
  - now apply list_errors_some_out_of_range.
  - apply list_errors_length.
Qed.

(** X2, on a batch of three with two items out of bounds. *)
Lemma batch_with_an_invalid_item_is_refused_run :
  exists errors,
    post_predict_batch broken_model
      [ mkFlightBody "IB3456" 99 false;
        mkFlightBody "VY1001" 100 true;
        mkFlightBody "UX0042" 5001 true ]
      (startup 1000)
    = (inl (RequestValidationError errors), startup 1000)
    /\ errors <> []
    /\ List.length errors
       = List.length
           (filter (fun b => negb (in_range b))
              [ mkFlightBody "IB3456" 99 false;
                mkFlightBody "VY1001" 100 true;
                mkFlightBody "UX0042" 5001 true ]).
Proof.
  apply (batch_with_an_invalid_item_is_refused broken_model
           [ mkFlightBody "IB3456" 99 false;
             mkFlightBody "VY1001" 100 true;
             mkFlightBody "UX0042" 5001 true ]
           (mkFlightBody "UX0042" 5001 true) (startup 1000)).
  - simpl. auto.
  - right. simpl. lia.
Defined.

(** X3. An answered batch has exactly one prediction per item of the
    request, in the request's order and with the items' [flight_id]s;
    [count] is the number of items, and [prediction_count] has grown by
    it. *)
Theorem answered_batch_has_one_prediction_per_item
    (model : Classifier) (body : list FlightBody) (w w' : World)
    (b : BatchResult) :
  post_predict_batch model body w = (inr b, w') ->
  map res_flight_id (predictions b) = map body_flight_id body
  /\ count b = Z.of_nat (List.length body)
  /\ prediction_count w' = prediction_count w + Z.of_nat (List.length body)
  /\ forallb in_range body = true.
Proof.
  unfold post_predict_batch.
  destruct (validate_FlightData_list body) as [errs|data_list] eqn:Ev;
    [discriminate|].
  apply validate_FlightData_list_inr in Ev as [-> Hr].
  rewrite predict_batch_run.
  destruct (first_failure model (map FlightData_of body)) eqn:Ef;
    [discriminate|].
  destruct (first_failure_none model _ Ef) as (Hn & Hi & _).
  intros H. inversion H; subst; clear H. simpl.
  rewrite scored_results_length, Hn, Hi, length_map, map_map.
  repeat split; try reflexivity. exact Hr.
Qed.

(** X3, on a batch of two. *)
Lemma answered_batch_has_one_prediction_per_item_run :
  map res_flight_id
    [ mkPredictionResult "IB3456" 0.25 false;
      mkPredictionResult "UX0042" 0.25 false ]
  = map body_flight_id
      [ mkFlightBody "IB3456" 1200 true; mkFlightBody "UX0042" 100 false ]
  /\ count (mkBatchResult [ mkPredictionResult "IB3456" 0.25 false;
                            mkPredictionResult "UX0042" 0.25 false ] 2)
     = Z.of_nat (List.length [ mkFlightBody "IB3456" 1200 true;
                               mkFlightBody "UX0042" 100 false ])
  /\ prediction_count (mkWorld 2 1000 [ [[1200; 1]]; [[100; 0]] ])
     = prediction_count (startup 1000)
       + Z.of_nat (List.length [ mkFlightBody "IB3456" 1200 true;
                                 mkFlightBody "UX0042" 100 false ])
  /\ forallb in_range [ mkFlightBody "IB3456" 1200 true;
                        mkFlightBody "UX0042" 100 false ] = true.
Proof.
  exact (answered_batch_has_one_prediction_per_item (constant_model 0.25)
           [ mkFlightBody "IB3456" 1200 true; mkFlightBody "UX0042" 100 false ]
           (startup 1000)
           (mkWorld 2 1000 [ [[1200; 1]]; [[100; 0]] ])
           (mkBatchResult [ mkPredictionResult "IB3456" 0.25 false;
                            mkPredictionResult "UX0042" 0.25 false ] 2)
           eq_refl).
Defined.

(** X4. An answered batch and its items sent one by one to [/predict]
    agree: each item gets the prediction the batch holds for it, and the
    state after the last single request is the state after the batch. *)
Theorem answered_batch_agrees_with_single_requests
    (model : Classifier) (body : list FlightBody) (w w' : World)
    (b : BatchResult) :
  post_predict_batch model body w = (inr b, w') ->
  run model (map POST_predict body) w = w'
  /\ Forall2 (fun item r =>
                forall w0, fst (post_predict model item w0) = inr r)
             body (predictions b).
Proof.
  unfold post_predict_batch.
  destruct (validate_FlightData_list body) as [errs|data_list] eqn:Ev;
    [discriminate|].
  apply validate_FlightData_list_inr in Ev as [-> Hr].
  rewrite predict_batch_run.
  destruct (first_failure model (map FlightData_of body)) eqn:Ef;
    [discriminate|].
  destruct (first_failure_none model _ Ef) as (Hn & _ & _).
  destruct (singles_of_a_scored_batch model body Hr Ef) as (Hs & Hc & Hf).
  rewrite Hn, firstn_all2 by lia.
  intros H. inversion H; subst; clear H. cbn [predictions].
  split; [|exact Hf].
  rewrite run_world, Hs, Hc, length_map. reflexivity.
Qed.

(** X4, on a batch of two from a counter at 40. *)
Lemma answered_batch_agrees_with_single_requests_run :
  run (constant_model 0.25)
    (map POST_predict
       [ mkFlightBody "IB3456" 1200 true; mkFlightBody "UX0042" 100 false ])
    (mkWorld 40 1000 [])
  = mkWorld 42 1000 [ [[1200; 1]]; [[100; 0]] ]
  /\ Forall2 (fun item r =>
                forall w0,
                  fst (post_predict (constant_model 0.25) item w0) = inr r)
             [ mkFlightBody "IB3456" 1200 true;
               mkFlightBody "UX0042" 100 false ]
             (predictions
                (mkBatchResult [ mkPredictionResult "IB3456" 0.25 false;
                                 mkPredictionResult "UX0042" 0.25 false ] 2)).
Proof.
  exact (answered_batch_agrees_with_single_requests (constant_model 0.25)
           [ mkFlightBody "IB3456" 1200 true; mkFlightBody "UX0042" 100 false ]
           (mkWorld 40 1000 [])
           (mkWorld 42 1000 [ [[1200; 1]]; [[100; 0]] ])
           (mkBatchResult [ mkPredictionResult "IB3456" 0.25 false;
                            mkPredictionResult "UX0042" 0.25 false ] 2)
           eq_refl).
Defined.

(** X5. Scoring a list in two batches or in one gives the same: when the
    batch [l1] is answered, the batch [l1 ++ l2] does what the batch [l2]
    does from the state [l1] left, with the predictions of [l1] in front
    and the two counts added. *)
Theorem batch_of_a_concatenation
    (model : Classifier) (l1 l2 : list FlightData) (w w1 : World)
    (b1 : BatchResult) :
  predict_batch model l1 w = (inr b1, w1) ->
  predict_batch model (l1 ++ l2) w
  = match predict_batch model l2 w1 with
    | (inr b2, w2) =>
        (inr {| predictions := predictions b1 ++ predictions b2;
                count := count b1 + count b2 |}, w2)
    | (inl e, w2) => (inl e, w2)
    end.
Proof.
  rewrite !predict_batch_run.
  destruct (first_failure model l1) eqn:Ef; [discriminate|].
  destruct (first_failure_none model _ Ef) as (Hn & _ & _).
  destruct (first_failure_app model l1 l2 Ef) as (Hf & Hr & Hp).
  rewrite Hf, Hr, Hp, Hn.
  rewrite (firstn_all2 (n := S (List.length l1)) l1) by lia.
  replace (firstn (S (List.length l1 + scored_prefix model l2)) (l1 ++ l2))
    with (l1 ++ firstn (S (scored_prefix model l2)) l2).
  2:{ replace (S (List.length l1 + scored_prefix model l2))
        with (List.length l1 + S (scored_prefix model l2))%nat by lia.
      now rewrite firstn_app_2. }
  intros H. inversion H; subst; clear H.
  cbn [predictions count prediction_count start_time model_calls].
  rewrite map_app, app_assoc, length_app, !Nat2Z.inj_add, Z.add_assoc.
  rewrite scored_results_length, Hn.
  now destruct (first_failure model l2).
Qed.

(** X5, with the second batch failing on its second record. *)
Lemma batch_of_a_concatenation_run :
  predict_batch fair_weather_model
    ([ mkFlightData "IB3456" 1200 false ]
     ++ [ mkFlightData "UX0042" 800 false; mkFlightData "VY1001" 2500 true ])
    (startup 1000)
  = match predict_batch fair_weather_model
            [ mkFlightData "UX0042" 800 false; mkFlightData "VY1001" 2500 true ]
            (mkWorld 1 1000 [ [[1200; 0]] ]) with
    | (inr b2, w2) =>
        (inr {| predictions :=
                  predictions
                    (mkBatchResult [ mkPredictionResult "IB3456" 0.75 true ] 1)
                  ++ predictions b2;
                count :=
                  count (mkBatchResult
                           [ mkPredictionResult "IB3456" 0.75 true ] 1)
                  + count b2 |}, w2)
    | (inl e, w2) => (inl e, w2)
    end.
Proof.
  exact (batch_of_a_concatenation fair_weather_model
           [ mkFlightData "IB3456" 1200 false ]
           [ mkFlightData "UX0042" 800 false; mkFlightData "VY1001" 2500 true ]
           (startup 1000)
           (mkWorld 1 1000 [ [[1200; 0]] ])
           (mkBatchResult [ mkPredictionResult "IB3456" 0.75 true ] 1)
           eq_refl).
Defined.

(** X6. After any sequence of requests since start-up, [prediction_count]
    is the number of classifier calls made so far whose answer had a
    positive-class entry: every counted prediction is a call that
    succeeded, and every such call is counted. *)
Theorem counter_is_the_number_of_successful_calls
    (model : Classifier) (reqs : list Request) (now : float) :
  prediction_count (run model reqs (startup now))
  = Z.of_nat
      (List.length
         (filter (call_scores model)
            (model_calls (run model reqs (startup now)))))
  /\ prediction_count (run model reqs (startup now))
     <= Z.of_nat (List.length (model_calls (run model reqs (startup now)))).
Proof.
  rewrite run_world. cbn [prediction_count model_calls startup app].
  rewrite session_calls_successes. split; [lia|].
  rewrite <- (session_calls_successes model reqs).
  apply inj_le, filter_length_le.
Qed.

(** X7. Whatever the requests since start-up, the classifier has only
    been called on one-row matrices [[d, b]] with [d] within the schema's
    bounds and [b] 0 or 1. *)
Theorem classifier_only_gets_validated_rows
    (model : Classifier) (reqs : list Request) (now : float) :
  Forall (fun X => exists d b, X = [[d; Z.b2z b]] /\ 100 <= d <= 5000)
         (model_calls (run model reqs (startup now))).
Proof.
  rewrite run_world. cbn [model_calls startup app].
  induction reqs as [|req rest IH]; simpl; [constructor|].
  apply Forall_app. split; [apply request_calls_in_bounds | exact IH].
Qed.

(** X8. [metrics], when it answers, reports as [total_predictions] the
    number of records scored successfully by all the requests since
    start-up, and leaves the state as it found it. *)
Theorem metrics_reports_the_scorings_of_the_session
    (model : Classifier) (reqs : list Request) (t0 now : float)
    (m : Metrics) (w' : World) :
  metrics now (run model reqs (startup t0)) = (inr m, w') ->
  total_predictions m = Z.of_nat (session_scorings model reqs)
  /\ w' = run model reqs (startup t0).
Proof.
  unfold metrics. rewrite run_world.
  cbn [prediction_count start_time model_calls startup].
  destruct (int_of_float (now - t0)); [discriminate|].
  intros H. inversion H. split; reflexivity.
Qed.

(** X8, after a scored request, a refused one and a batch of two. *)
Lemma metrics_reports_the_scorings_of_the_session_run :
  total_predictions (mkMetrics 3 12)
  = Z.of_nat
      (session_scorings (constant_model 0.75)
         [ POST_predict (mkFlightBody "IB3456" 1200 false);
           POST_predict (mkFlightBody "VY1001" 50 true);
           POST_predict_batch [ mkFlightBody "UX0042" 800 true;
                                mkFlightBody "AF0007" 400 false ] ])
  /\ mkWorld 3 1000 [ [[1200; 0]]; [[800; 1]]; [[400; 0]] ]
     = run (constant_model 0.75)
         [ POST_predict (mkFlightBody "IB3456" 1200 false);
           POST_predict (mkFlightBody "VY1001" 50 true);
           POST_predict_batch [ mkFlightBody "UX0042" 800 true;
                                mkFlightBody "AF0007" 400 false ] ]
         (startup 1000).
Proof.
  exact (metrics_reports_the_scorings_of_the_session (constant_model 0.75)
           [ POST_predict (mkFlightBody "IB3456" 1200 false);
             POST_predict (mkFlightBody "VY1001" 50 true);
             POST_predict_batch [ mkFlightBody "UX0042" 800 true;
                                  mkFlightBody "AF0007" 400 false ] ]
           1000 1012.75
           (mkMetrics 3 12)
           (mkWorld 3 1000 [ [[1200; 0]]; [[800; 1]]; [[400; 0]] ])
           eq_refl).
Defined.

(** X9. No request writes [start_time]: after any sequence of requests it
    is the value set at start-up. *)
Theorem start_time_is_never_written
    (model : Classifier) (reqs : list Request) (w : World) (now : float) :
  start_time (run model reqs w) = start_time w
  /\ start_time (run model reqs (startup now)) = now.
Proof. rewrite !run_world. split; reflexivity. Qed.

(** X10. [info], [metrics] and [simulate_error] requests leave no trace:
    a sequence of requests ends in the same state as the sequence of its
    prediction requests alone. *)
Theorem bookkeeping_requests_leave_no_trace
    (model : Classifier) (reqs : list Request) (w : World) :
  run model (filter is_prediction reqs) w = run model reqs w.
Proof.
  revert w. induction reqs as [|req rest IH]; intros w; [reflexivity|].
  cbn [filter run]. destruct (is_prediction req) eqn:E.
  - cbn [run]. apply IH.
  - rewrite serve_bookkeeping by exact E. apply IH.
Qed.

(** X11. [prediction_count] does not depend on the order in which the
    requests arrive. *)
Theorem counter_does_not_depend_on_the_order
    (model : Classifier) (reqs reqs' : list Request) (w : World) :
  Permutation reqs reqs' ->
  prediction_count (run model reqs w) = prediction_count (run model reqs' w).
Proof.
  intros H. rewrite !run_world. cbn [prediction_count].
  now rewrite (session_scorings_perm model reqs reqs' H).
Qed.

(** X11, on a failing batch moved from the end to the front. *)
Lemma counter_does_not_depend_on_the_order_run :
  prediction_count
    (run fair_weather_model
       [ POST_predict (mkFlightBody "IB3456" 1200 false);
         POST_predict_batch [ mkFlightBody "UX0042" 800 false;
                              mkFlightBody "VY1001" 2500 true ] ]
       (startup 1000))
  = prediction_count
      (run fair_weather_model
         [ POST_predict_batch [ mkFlightBody "UX0042" 800 false;
                                mkFlightBody "VY1001" 2500 true ];
           POST_predict (mkFlightBody "IB3456" 1200 false) ]
         (startup 1000)).
Proof.
  apply (counter_does_not_depend_on_the_order fair_weather_model
           [ POST_predict (mkFlightBody "IB3456" 1200 false);
             POST_predict_batch [ mkFlightBody "UX0042" 800 false;
                                  mkFlightBody "VY1001" 2500 true ] ]
           [ POST_predict_batch [ mkFlightBody "UX0042" 800 false;
                                  mkFlightBody "VY1001" 2500 true ];
             POST_predict (mkFlightBody "IB3456" 1200 false) ]
           (startup 1000)).
  apply perm_swap.
Defined.

(** X12. What the two prediction endpoints answer does not depend on the
    state: neither the counter nor the start time nor earlier requests
    change a prediction or an error. *)
Theorem answers_do_not_depend_on_the_state
    (model : Classifier) (w1 w2 : World) :
  (forall body,
     fst (post_predict model body w1) = fst (post_predict model body w2))
  /\ (forall body,
     fst (post_predict_batch model body w1)
     = fst (post_predict_batch model body w2)).
Proof.
  split; intros body.
  - unfold post_predict. destruct (validate_FlightData body); [reflexivity|].
    now rewrite !predict_delay_run.
  - unfold post_predict_batch.
    destruct (validate_FlightData_list body); [reflexivity|].
    now rewrite !predict_batch_run.
Qed.

(** X13. Only entry [[0][1]] of the classifier's answer is read: further
    columns and further rows are accepted and ignored, and the entry is
    returned as it is, without a check that it is a probability. *)
Theorem only_the_positive_class_entry_is_read
    (model : Classifier) (data : FlightData) (w : World)
    (p0 p1 : float) (more : list float) (rows : list (list float)) :
  predict_proba model [[distance data; Z.b2z (bad_weather data)]]
  = inr ((p0 :: p1 :: more) :: rows) ->
  fst (predict_delay model data w)
  = inr {| res_flight_id := flight_id data;
           delay_probability := p1;
           delayed := (0.5 <? p1)%float |}
  /\ fst (predict_batch model [data] w)
     = inr {| predictions :=
                [ {| res_flight_id := flight_id data;
                     delay_probability := p1;
                     delayed := (0.5 <? p1)%float |} ];
              count := 1 |}.
Proof.
  intros H.
  assert (Hp : positive_class_probability model (features_of data) = inr p1).
  { unfold positive_class_probability, features_of. now rewrite H. }
  rewrite predict_delay_run, predict_batch_run. simpl. now rewrite Hp.
Qed.

(** X13, with a classifier of three classes that answers a row too many. *)
Lemma only_the_positive_class_entry_is_read_run :
  fst (predict_delay three_class_model (mkFlightData "IB3456" 1200 true)
         (startup 1000))
  = inr {| res_flight_id := "IB3456";
           delay_probability := 0.625;
           delayed := (0.5 <? 0.625)%float |}
  /\ fst (predict_batch three_class_model
            [mkFlightData "IB3456" 1200 true] (startup 1000))
     = inr {| predictions :=
                [ {| res_flight_id := "IB3456";
                     delay_probability := 0.625;
                     delayed := (0.5 <? 0.625)%float |} ];
              count := 1 |}.
Proof.
  exact (only_the_positive_class_entry_is_read three_class_model
           (mkFlightData "IB3456" 1200 true) (startup 1000)
           0.125%float 0.625%float [0.25%float]
           [[1%float; 0%float; 0%float]] eq_refl).
Defined.

(** X14. A single prediction fails exactly when the classifier raises or
    its answer has no entry [[0][1]] (no row, or a first row of fewer than
    two entries); the failure is then a 500. *)
Theorem prediction_fails_exactly_when
    (model : Classifier) (data : FlightData) (w : World) :
  ((exists e, fst (predict_delay model data w) = inl e)
   <-> match predict_proba model
               [[distance data; Z.b2z (bad_weather data)]] with
       | inl _ => True
       | inr proba => lacks_positive_class proba = true
       end)
  /\ (forall e, fst (predict_delay model data w) = inl e -> status_of e = 500).
Proof.
  rewrite predict_delay_run.
  unfold positive_class_probability, features_of, getitem.
  destruct (predict_proba model [[distance data; Z.b2z (bad_weather data)]])
    as [e|proba]; cbn [fst].
  - split; [split; [tauto | intros _; eexists; reflexivity]|].
    intros e' H. now inversion H.
  - destruct proba as [|row rest]; cbn [nth_error lacks_positive_class].
    + split; [split; [reflexivity | intros _; eexists; reflexivity]|].
      intros e' H. now inversion H.
    + destruct row as [|p0 [|p1 more]]; cbn [nth_error List.length Nat.ltb Nat.leb].
      * split; [split; [reflexivity | intros _; eexists; reflexivity]|].
        intros e' H. now inversion H.
      * split; [split; [reflexivity | intros _; eexists; reflexivity]|].
        intros e' H. now inversion H.
      * split; [split; [intros [e' H]; discriminate | discriminate]|].
        intros e' H. discriminate.
Qed.

(** * Properties of the training script *)

Lemma generate_closed (draws : list train.Draw) :
  forall X y,
    train.generate draws X y
    = (X ++ map (fun d => [train.randint d; train.choice d]) draws,
       y ++ map (fun d =>
                   Z.b2z (train.rand d
                          <? train.delay_prob (train.randint d)
                               (train.choice d))%float)
              draws).
Proof.
  induction draws as [|d rest IH]; intros X y; simpl.
  - now rewrite !app_nil_r.
  - rewrite IH, <- !app_assoc. reflexivity.
Qed.

(** X15. Whatever the distance and the weather, the probability the
    script labels a flight with is one of 0.2, 0.2 + 0.3, 0.2 + 0.4 and
    0.2 + 0.3 + 0.4 as binary64 sums, lies strictly between 0 and 1, and
    does not decrease when the distance grows or when the weather turns
    bad. *)
Theorem delay_prob_is_a_probability :
  (forall distance bad_weather,
     (0 <? train.delay_prob distance bad_weather)%float = true
     /\ (train.delay_prob distance bad_weather <? 1)%float = true
     /\ In (train.delay_prob distance bad_weather)
           [ 0.2%float; (0.2 + 0.3)%float; (0.2 + 0.4)%float;
             (0.2 + 0.3 + 0.4)%float ])
  /\ (forall d1 d2 bad_weather,
     d1 <= d2 ->
     (train.delay_prob d1 bad_weather
      <=? train.delay_prob d2 bad_weather)%float = true)
  /\ (forall distance bad_weather,
     (train.delay_prob distance bad_weather
      <=? train.delay_prob distance 1)%float = true).
Proof.
  split; [|split].
  - intros distance bad_weather. unfold train.delay_prob.
    destruct (distance >? 1500), (bad_weather =? 1);
      (split; [reflexivity | split; [reflexivity | simpl; tauto]]).
  - intros d1 d2 bad_weather H. unfold train.delay_prob.
    destruct (Z.gtb_spec d1 1500), (Z.gtb_spec d2 1500),
      (bad_weather =? 1); try reflexivity; lia.
  - intros distance bad_weather. unfold train.delay_prob.
    destruct (distance >? 1500), (bad_weather =? 1); reflexivity.
Qed.

(** X16. After the loop, [X] holds one row [[distance, bad_weather]] per
    turn and [y] one label per turn, in the order of the turns: the two
    lists have the length of the run, every row has two entries, every
    label is 0 or 1, and a label is 1 exactly when the turn's [rand()] was
    below its [delay_prob]. *)
Theorem dataset_has_one_labelled_row_per_turn (draws : list train.Draw) :
  fst (train.dataset draws)
  = map (fun d => [train.randint d; train.choice d]) draws
  /\ snd (train.dataset draws)
     = map (fun d =>
              Z.b2z (train.rand d
                     <? train.delay_prob (train.randint d)
                          (train.choice d))%float)
         draws
  /\ List.length (fst (train.dataset draws)) = List.length draws
  /\ List.length (snd (train.dataset draws)) = List.length draws
  /\ Forall (fun row => List.length row = 2%nat) (fst (train.dataset draws))
  /\ Forall (fun label => label = 0 \/ label = 1) (snd (train.dataset draws)).
Proof.
  unfold train.dataset. rewrite generate_closed. cbn [fst snd app].
  rewrite !length_map. repeat split.
  - apply Forall_forall. intros row Hin. apply in_map_iff in Hin.
    now destruct Hin as (d & <- & _).
  - apply Forall_forall. intros label Hin. apply in_map_iff in Hin.
    destruct Hin as (d & <- & _).
    destruct (train.rand d <? _)%float; simpl; auto.
Qed.

(** X17. A row the script trains on is a row the API can be asked about:
    when the draws are what [randint(200, 3000)] and [choice([0, 1])] can
    give, the flight with that distance and weather passes the schema, and
    [predict_delay] calls the classifier on exactly the training row. *)
Theorem training_rows_are_rows_the_api_scores
    (model : Classifier) (d : train.Draw) (id : string) (w : World) :
  200 <= train.randint d < 3000 ->
  train.choice d = 0 \/ train.choice d = 1 ->
  in_range (mkFlightBody id (train.randint d) (train.choice d =? 1)) = true
  /\ model_calls
       (snd (post_predict model
               (mkFlightBody id (train.randint d) (train.choice d =? 1)) w))
     = model_calls w ++ [ [[train.randint d; train.choice d]] ].
Proof.
  intros Hd Hc.
  assert (Hr : in_range (mkFlightBody id (train.randint d)
                           (train.choice d =? 1)) = true).
  { apply in_range_spec. simpl. lia. }
  split; [exact Hr|].
  rewrite post_predict_in_range by exact Hr. rewrite predict_delay_run.
  cbn [snd model_calls]. unfold features_of, FlightData_of. simpl.
  destruct Hc as [-> | ->]; reflexivity.
Qed.

(** X17, on a turn that drew 2999 and bad weather. *)
Lemma training_rows_are_rows_the_api_scores_run :
  in_range (mkFlightBody "IB3456"
              (train.randint (train.mkDraw 2999 1 0.5))
              (train.choice (train.mkDraw 2999 1 0.5) =? 1)) = true
  /\ model_calls
       (snd (post_predict (constant_model 0.75)
               (mkFlightBody "IB3456"
                  (train.randint (train.mkDraw 2999 1 0.5))
                  (train.choice (train.mkDraw 2999 1 0.5) =? 1))
               (startup 1000)))
     = model_calls (startup 1000)
       ++ [ [[train.randint (train.mkDraw 2999 1 0.5);
              train.choice (train.mkDraw 2999 1 0.5)]] ].
Proof.
  apply (training_rows_are_rows_the_api_scores (constant_model 0.75)
           (train.mkDraw 2999 1 0.5) "IB3456" (startup 1000)).
  - simpl. lia.
  - right. reflexivity.
Defined.
